(** * Event-based backtesting: the [BacktestBase] ledger

    A shallow embedding of [src/backtest_base.py].

    The class keeps a cash balance ([amount]), a signed holding ([units]) and
    a trade counter ([trades]); its methods read prices from a data frame
    loaded once by [get_data], mutate the object in place and report on
    standard output.  The embedding threads the object and the output through
    a small state-and-exception monad: a raised exception aborts the rest of
    the method but keeps every mutation made before it, as in Python.

    Numbers.  The methods are written once, over a number system given by the
    class [Number]: the operations the source applies to cash, prices and
    costs.  Two instances follow: [binary64], IEEE 754 double precision, which
    is what CPython and NumPy compute with, and [exact], the rationals, which
    is the arithmetic the specification's worked examples are stated in.
    Python [int]s ([units], [trades], the bar index) are [Z]. *)

From Stdlib Require Import ZArith List String Bool Lia.
From Stdlib Require Import QArith Qcanon Qround Field.
From Stdlib Require Import Floats.
Import ListNotations.
Open Scope string_scope.
Open Scope Z_scope.

Set Implicit Arguments.

(** ** Exceptions *)

(** The exceptions numeric conversions and divisions raise. *)
Inductive arith_exn : Type :=
| ZeroDivisionError
| OverflowError      (* int(inf) *)
| ValueError.        (* int(nan) *)

(** The exceptions a method of the class can raise. *)
Inductive exn : Type :=
| AttributeError (name : string)  (* the object has no attribute [name] *)
| TypeError                       (* None / price *)
| IndexError                      (* bar outside the data frame *)
| FileNotFoundError               (* read_csv *)
| ArithmeticError (e : arith_exn).

Inductive outcome (A : Type) : Type :=
| Return (a : A)
| Raise (e : exn).
Arguments Return {A} a.
Arguments Raise {A} e.

(** ** The number system *)

(** What the source does with cash, prices and costs: [+], [-], [*], [/],
    promotion of an [int] operand and [int(x)]. *)
Class Number (num : Type) : Type := {
  of_int : Z -> num;
  add : num -> num -> num;
  sub : num -> num -> num;
  mul : num -> num -> num;
  truediv : num -> num -> arith_exn + num;
  to_int : num -> arith_exn + Z
}.

Declare Scope num_scope.
Delimit Scope num_scope with num.
Infix "+." := add (at level 50, left associativity) : num_scope.
Infix "-." := sub (at level 50, left associativity) : num_scope.
Infix "*." := mul (at level 40, left associativity) : num_scope.
Open Scope num_scope.

(** The specification rounds an amount to units with [floor]; [spec_floor] is
    that function and [nonneg] the order it is compared under.  They describe
    the specification's words, the source never calls them. *)
Class NumberFloor (num : Type) `{Number num} : Type := {
  spec_floor : num -> arith_exn + Z;
  nonneg : num -> bool;
  to_int_nonneg : forall x, nonneg x = true -> to_int x = spec_floor x
}.

(** ** Python sequence indexing *)

(** [l[bar]]: a negative index counts from the end. *)
Definition iloc {A : Type} (l : list A) (bar : Z) : option A :=
  let n := Z.of_nat (List.length l) in
  if (0 <=? bar) && (bar <? n) then nth_error l (Z.to_nat bar)
  else if (- n <=? bar) && (bar <? 0) then nth_error l (Z.to_nat (bar + n))
  else None.

(** [[True for bar in range(-n, n)]] *)
Definition valid_bar {A : Type} (l : list A) (bar : Z) : Prop :=
  - Z.of_nat (List.length l) <= bar < Z.of_nat (List.length l).

Section Ledger.

Context {num : Type} `{Number num}.

(** ** Data model *)

(** A row of [self.data]: the index label as [str] prints it and the closing
    price.  The [return] column is never read by the class and is not kept;
    [get_data] below records which rows its [dropna] removes. *)
Record bar : Type := mkBar {
  label : string;
  close : num
}.

(** The instance attributes set by [__init__]. *)
Record BacktestBase : Type := mkBacktestBase {
  start : string;
  end_ : string;
  initial_amount : num;
  amount : num;
  ftc : num;
  ptc : num;
  units : Z;
  position : Z;
  trades : Z;
  verbose : bool;
  data : list bar
}.

Definition set_amount (v : num) (s : BacktestBase) : BacktestBase :=
  mkBacktestBase (start s) (end_ s) (initial_amount s) v (ftc s) (ptc s)
                 (units s) (position s) (trades s) (verbose s) (data s).

Definition set_units (v : Z) (s : BacktestBase) : BacktestBase :=
  mkBacktestBase (start s) (end_ s) (initial_amount s) (amount s) (ftc s) (ptc s)
                 v (position s) (trades s) (verbose s) (data s).

Definition set_trades (v : Z) (s : BacktestBase) : BacktestBase :=
  mkBacktestBase (start s) (end_ s) (initial_amount s) (amount s) (ftc s) (ptc s)
                 (units s) (position s) v (verbose s) (data s).

Definition set_data (v : list bar) (s : BacktestBase) : BacktestBase :=
  mkBacktestBase (start s) (end_ s) (initial_amount s) (amount s) (ftc s) (ptc s)
                 (units s) (position s) (trades s) (verbose s) v.

(** A line written by [print].  A line carries the values its format string
    interpolates; the rendering ([:.2f]) is not modelled. *)
Inductive line : Type :=
| selling (date : string) (n : Z) (price : num)
    (* f"{date} selling {units} units at {price:.2f}" *)
| current_balance (date : string) (balance : num)
    (* f"{date}, current balance {self.amount:.2f}" *)
| current_net_wealth (date : string) (net_wealth : num)
    (* f"{date}, current net wealth {self.net_wealth:.2f}" *)
| inventory (date : string) (n : Z) (price : num)
    (* f"{date} inventory {self.units} units at {price:.2f}" *)
| rule
    (* '=' * 55 *)
| final_balance (balance : num)
    (* "Final balance [$] {:.2f}" *)
| net_performance (perf : num)
    (* "Net Performance [%] {:.2f}" *)
| trades_executed (n : Z).
    (* "Trades Executed [#] {}" *)

(** The object and what has been printed so far. *)
Record world : Type := mkWorld {
  self : BacktestBase;
  stdout : list line
}.

(** ** The monad of methods *)

Definition M (A : Type) : Type := world -> outcome A * world.

Definition ret {A : Type} (a : A) : M A := fun w => (Return a, w).

Definition raise {A : Type} (e : exn) : M A := fun w => (Raise e, w).

Definition bind {A B : Type} (m : M A) (k : A -> M B) : M B :=
  fun w => match m w with
           | (Return a, w') => k a w'
           | (Raise e, w') => (Raise e, w')
           end.

Definition gets {A : Type} (f : BacktestBase -> A) : M A :=
  fun w => (Return (f (self w)), w).

Definition modify (f : BacktestBase -> BacktestBase) : M unit :=
  fun w => (Return tt, mkWorld (f (self w)) (stdout w)).

Definition print (l : line) : M unit :=
  fun w => (Return tt, mkWorld (self w) (stdout w ++ [l])).

(** A computation that reads and writes nothing. *)
Definition lift {A : Type} (o : outcome A) : M A := fun w => (o, w).

Definition arith {A : Type} (r : arith_exn + A) : outcome A :=
  match r with
  | inl e => Raise (ArithmeticError e)
  | inr a => Return a
  end.

Notation "x <- m ;; k" := (bind m (fun x => k))
  (at level 61, m at next level, right associativity).
Notation "m ;; k" := (bind m (fun _ => k))
  (at level 61, right associativity).

(** ** Methods *)

(** [get_date_price]: the first ten characters of the index label and the
    closing price of the bar; [IndexError] outside the frame. *)
Definition get_date_price (b : Z) : M (string * num) :=
  rows <- gets data ;;
  match iloc rows b with
  | Some r => ret (substring 0 10 (label r), close r)
  | None => raise IndexError
  end.

(** Attribute lookup on [self] for the two names [print_net_wealth] asks for.
    The class defines [get_date_price]; nothing defines [get_data_price], and
    [net_wealth] is a local variable of the method, never an attribute. *)
Definition getattr_method (name : string) : M (Z -> M (string * num)) :=
  if String.eqb name "get_date_price" then ret get_date_price
  else raise (AttributeError name).

Definition getattr_value (name : string) : M num :=
  if String.eqb name "amount" then gets amount
  else if String.eqb name "initial_amount" then gets initial_amount
  else if String.eqb name "ftc" then gets ftc
  else if String.eqb name "ptc" then gets ptc
  else raise (AttributeError name).

Definition print_balance (b : Z) : M unit :=
  dp <- get_date_price b ;;
  a <- gets amount ;;
  print (current_balance (fst dp) a).

Definition print_net_wealth (b : Z) : M unit :=
  f <- getattr_method "get_data_price" ;;
  dp <- f b ;;
  u <- gets units ;;
  a <- gets amount ;;
  let net_wealth := (of_int u *. snd dp) +. a in
  v <- getattr_value "net_wealth" ;;
  print (current_net_wealth (fst dp) v).

(** [if units is None: units = int(amount / price)] *)
Definition resolve_units (units_ : option Z) (amount_ : option num) (price : num)
  : outcome Z :=
  match units_ with
  | Some u => Return u
  | None =>
      match amount_ with
      | None => Raise TypeError
      | Some a =>
          match truediv a price with
          | inl e => Raise (ArithmeticError e)
          | inr q => arith (to_int q)
          end
      end
  end.

Definition place_buy_order (b : Z) (units_ : option Z) (amount_ : option num)
  : M unit :=
  dp <- get_date_price b ;;
  let (date, price) := dp in
  u <- lift (resolve_units units_ amount_ price) ;;
  modify (fun s =>
    set_amount (amount s -. ((of_int u *. price) *. (of_int 1 +. ptc s) +. ftc s)) s) ;;
  modify (fun s => set_units (units s + u) s) ;;
  modify (fun s => set_trades (trades s + 1) s) ;;
  v <- gets verbose ;;
  if v then
    print (selling date u price) ;;
    print_balance b ;;
    print_net_wealth b
  else ret tt.

Definition place_sell_order (b : Z) (units_ : option Z) (amount_ : option num)
  : M unit :=
  dp <- get_date_price b ;;
  let (date, price) := dp in
  u <- lift (resolve_units units_ amount_ price) ;;
  modify (fun s =>
    set_amount (amount s +. ((of_int u *. price) *. (of_int 1 -. ptc s) -. ftc s)) s) ;;
  modify (fun s => set_units (units s - u) s) ;;
  modify (fun s => set_trades (trades s + 1) s) ;;
  v <- gets verbose ;;
  if v then
    print (selling date u price) ;;
    print_balance b ;;
    print_net_wealth b
  else ret tt.

Definition close_out (b : Z) : M unit :=
  dp <- get_date_price b ;;
  let (date, price) := dp in
  modify (fun s => set_amount (amount s +. (of_int (units s) *. price)) s) ;;
  modify (fun s => set_units 0 s) ;;
  modify (fun s => set_trades (trades s + 1) s) ;;
  v <- gets verbose ;;
  (if v then
     u <- gets units ;;
     print (inventory date u price) ;;
     print rule
   else ret tt) ;;
  a <- gets amount ;;
  print (final_balance a) ;;
  i <- gets initial_amount ;;
  q <- lift (arith (truediv (a -. i) i)) ;;
  let perf := q *. of_int 100 in
  print (net_performance perf) ;;
  t <- gets trades ;;
  print (trades_executed t) ;;
  print rule.

(** ** Loading the data *)

(** A row of the CSV file as [read_csv] parses it: its index label (the
    column [parse_dates] turns into timestamps), its [close] cell, and whether
    some cell of the row is missing. *)
Record csv_row : Type := mkRow {
  row_label : string;
  row_close : num;
  row_isna : bool
}.

(** Two facts about pandas and NumPy that the embedding takes as given:
    [in_range start end l] says the label slice [raw.loc[start:end]] keeps the
    row labelled [l]; [return_isna c p] says [np.log(c / p)] is NaN. *)
Variable in_range : string -> string -> string -> bool.
Variable return_isna : num -> num -> bool.

(** [raw.shift(1)]: every row next to the close of the row before it. *)
Fixpoint shift (prev : option num) (rows : list bar) : list (bar * option num) :=
  match rows with
  | [] => []
  | r :: k => (r, prev) :: shift (Some (close r)) k
  end.

(** The second [dropna]: a row stays when its return is a number; the return
    of the first row, which has no row before it, is NaN. *)
Definition has_return (rp : bar * option num) : bool :=
  match snd rp with
  | None => false
  | Some p => negb (return_isna (close (fst rp)) p)
  end.

(** [get_data]; [csv] is the file, [None] when it cannot be read. *)
Definition get_data (csv : option (list csv_row)) : M unit :=
  match csv with
  | None => raise FileNotFoundError
  | Some rows =>
      let raw := filter (fun r => negb (row_isna r)) rows in
      let raw := map (fun r => mkBar (row_label r) (row_close r)) raw in
      s <- gets start ;;
      e <- gets end_ ;;
      let raw := filter (fun r => in_range s e (label r)) raw in
      modify (set_data (map fst (filter has_return (shift None raw))))
  end.

(** The rows of the file that fall in the requested range. *)
Definition rows_in_range (s e : string) (rows : list csv_row) : list csv_row :=
  filter (fun r => in_range s e (row_label r))
         (filter (fun r => negb (row_isna r)) rows).

(** [BacktestBase(start, end, amount, ftc, ptc, verbose)]: the attributes are
    set, then [get_data] runs. *)
Definition __init__ (start_ end__ : string) (amount_ ftc_ ptc_ : num)
  (verbose_ : bool) (csv : option (list csv_row)) : outcome unit * world :=
  get_data csv
    (mkWorld (mkBacktestBase start_ end__ amount_ amount_ ftc_ ptc_ 0 0 0 verbose_ [])
             []).

(** ** Sequences of orders *)

Inductive order : Type :=
| buy (b : Z) (units_ : option Z) (amount_ : option num)
| sell (b : Z) (units_ : option Z) (amount_ : option num)
| closeout (b : Z).

Definition exec (o : order) : M unit :=
  match o with
  | buy b u a => place_buy_order b u a
  | sell b u a => place_sell_order b u a
  | closeout b => close_out b
  end.

(** The calls one after the other; an exception ends the run. *)
Fixpoint run (os : list order) : M unit :=
  match os with
  | [] => ret tt
  | o :: k => exec o ;; run k
  end.

(** The attributes no order writes. *)
Definition frame (s s' : BacktestBase) : Prop :=
  start s' = start s /\ end_ s' = end_ s
  /\ initial_amount s' = initial_amount s
  /\ ftc s' = ftc s /\ ptc s' = ptc s
  /\ position s' = position s /\ verbose s' = verbose s /\ data s' = data s.

(** An order that runs to completion on a ledger that does not report each
    order: its bar is in the frame, a buy or sell is given units or an amount
    that [int(amount / price)] turns into units, and the performance quotient
    of a close-out is defined. Only [data] and [initial_amount] are read. *)
Definition is_return {A : Type} (o : outcome A) : bool :=
  match o with
  | Return _ => true
  | Raise _ => false
  end.

Definition well_formed (s : BacktestBase) (o : order) : Prop :=
  match o with
  | buy b u a | sell b u a =>
      match iloc (data s) b with
      | Some r => is_return (resolve_units u a (close r)) = true
      | None => False
      end
  | closeout b =>
      iloc (data s) b <> None /\
      forall x, exists q, truediv x (initial_amount s) = inr q
  end.

End Ledger.

Arguments bar : clear implicits.
Arguments BacktestBase : clear implicits.
Arguments line : clear implicits.
Arguments world : clear implicits.
Arguments csv_row : clear implicits.
Arguments order : clear implicits.

(** ** Binary64: the arithmetic of CPython and NumPy *)

(** Prices come out of the data frame as [numpy.float64], so every product,
    sum and quotient of the methods is an IEEE 754 double-precision
    operation, rounded to nearest, ties to even: the kernel's primitive
    floats. *)
Module Binary64.

(** [float(z)]: the integer rounded to the nearest double, ties to even.  An
    integer of magnitude 2^1024 or more has no double; Python refuses to
    convert it, the rounding here gives an infinity. *)
Definition of_int (z : Z) : float :=
  SF2Prim (binary_normalize prec emax z 0 false).

Definition signed (s : bool) (m : positive) : Z :=
  if s then Z.neg m else Z.pos m.

(** [int(x)]: the integer part, towards zero. *)
Definition to_int (x : float) : arith_exn + Z :=
  match Prim2SF x with
  | S754_zero _ => inr 0
  | S754_infinity _ => inl OverflowError
  | S754_nan => inl ValueError
  | S754_finite s m e =>
      inr (if 0 <=? e then signed s m * 2 ^ e
           else Z.quot (signed s m) (2 ^ (- e)))
  end.

(** [math.floor(x)]. *)
Definition floor (x : float) : arith_exn + Z :=
  match Prim2SF x with
  | S754_zero _ => inr 0
  | S754_infinity _ => inl OverflowError
  | S754_nan => inl ValueError
  | S754_finite s m e =>
      inr (if 0 <=? e then signed s m * 2 ^ e
           else Z.div (signed s m) (2 ^ (- e)))
  end.

(** [np.log(c / p)] is NaN when the quotient is NaN or negative. *)
Definition return_isna (c p : float) : bool :=
  let r := PrimFloat.div c p in
  PrimFloat.is_nan r || PrimFloat.ltb r 0%float.

End Binary64.

(** A NumPy scalar quotient never raises: it is an infinity or a NaN. *)
#[export] Instance binary64 : Number float := {
  of_int := Binary64.of_int;
  add := PrimFloat.add;
  sub := PrimFloat.sub;
  mul := PrimFloat.mul;
  truediv := fun x y => inr (PrimFloat.div x y);
  to_int := Binary64.to_int
}.

(** ** Exact: rational arithmetic *)

(** The arithmetic of the specification's worked examples: the same methods
    run on rationals, as they would on Python's [fractions.Fraction], whose
    [/] raises [ZeroDivisionError] on a zero divisor and whose [int]
    truncates towards zero. *)
Module Exact.

Definition of_int (z : Z) : Qc := Q2Qc (inject_Z z).

Definition truediv (x y : Qc) : arith_exn + Qc :=
  if Qc_eq_dec y (Q2Qc 0) then inl ZeroDivisionError else inr (Qcdiv x y).

Definition to_int (x : Qc) : arith_exn + Z :=
  inr (Z.quot (Qnum x) (Z.pos (Qden x))).

Definition floor (x : Qc) : arith_exn + Z := inr (Qfloor x).

End Exact.

#[export] Instance exact : Number Qc := {
  of_int := Exact.of_int;
  add := Qcplus;
  sub := Qcminus;
  mul := Qcmult;
  truediv := Exact.truediv;
  to_int := Exact.to_int
}.

(** ** Worked ledgers *)

(** Decimal literals below denote the nearest double, as they do in Python. *)
#[local] Set Warnings "-inexact-float".

Module Example.

(** Label slicing for ISO dates: a row is kept when its date lies between
    [start] and [end], both included. *)
Definition in_range (start_ end__ l : string) : bool :=
  String.leb start_ (substring 0 10 l) && String.leb (substring 0 10 l) end__.

(** Three daily rows inside the range and one before it. *)
Definition rows {num : Type} (c0 c1 c2 c3 : num) : list (csv_row num) :=
  [ mkRow "2018-12-31 00:00:00" c0 false;
    mkRow "2019-01-01 00:00:00" c1 false;
    mkRow "2019-01-02 00:00:00" c2 false;
    mkRow "2019-01-03 00:00:00" c3 false ].

(** [BacktestBase("2019-01-01", "2019-12-31", 10000, ftc=1, ptc=0.01,
    verbose=False)] over closes 95, 100, 110: the frame is the bars at 100
    and 110. *)
Definition ledger64 : world float :=
  snd (__init__ in_range Binary64.return_isna "2019-01-01" "2019-12-31"
         10000%float 1%float 0.01%float false
         (Some (rows 90 95 100 110)%float)).

(** The same ledger with the default [verbose=True]. *)
Definition ledger64_verbose : world float :=
  snd (__init__ in_range Binary64.return_isna "2019-01-01" "2019-12-31"
         10000%float 1%float 0.01%float true
         (Some (rows 90 95 100 110)%float)).

(** The same ledger in exact arithmetic; no return is NaN. *)
Definition ledgerQ : world Qc :=
  snd (__init__ in_range (fun _ _ => false) "2019-01-01" "2019-12-31"
         (Q2Qc 10000) (Q2Qc 1) (Q2Qc (1 # 100)) false
         (Some (rows (Q2Qc 90) (Q2Qc 95) (Q2Qc 100) (Q2Qc 110)))).

(** [BacktestBase("2019-01-01", "2019-12-31", 1000.1, verbose=False)]: no
    costs, the first bar at 7200.17. *)
Definition ledger_free : world float :=
  snd (__init__ in_range Binary64.return_isna "2019-01-01" "2019-12-31"
         1000.1%float 0%float 0%float false
         (Some (rows 7100 7150 7200.17 7300)%float)).

(** A ledger without costs in exact arithmetic. *)
Definition ledgerQ_free : world Qc :=
  snd (__init__ in_range (fun _ _ => false) "2019-01-01" "2019-12-31"
         (Q2Qc (10001 # 10)) (Q2Qc 0) (Q2Qc 0) false
         (Some (rows (Q2Qc 7100) (Q2Qc 7150) (Q2Qc (720017 # 100)) (Q2Qc 7300)))).

End Example.

(** ** Net wealth *)

(** The value [print_net_wealth] computes before it reports:
    [self.units * price + self.amount], the holding marked at [price] plus
    cash. *)
Definition net_wealth {num : Type} `{Number num} (s : BacktestBase num)
  (price : num) : num :=
  (of_int (units s) *. price) +. amount s.

(** ** Ledgers at the edges *)

Module Edge.

(** A frame whose first bar closed at 0.0. *)
Definition ledger_zero : world float :=
  snd (__init__ Example.in_range Binary64.return_isna "2019-01-01" "2019-12-31"
         10000%float 1%float 0.01%float false
         (Some (Example.rows 90 95 0 110)%float)).

(** A range that selects a single row: the frame is empty. *)
Definition ledger_empty : world float :=
  snd (__init__ Example.in_range Binary64.return_isna "2019-01-01" "2019-01-01"
         10000%float 1%float 0.01%float false
         (Some (Example.rows 90 95 100 110)%float)).

(** The object of [Example.ledger64] as [__init__] hands it to [get_data],
    and the file it reads. *)
Definition blank64 : world float :=
  mkWorld (mkBacktestBase "2019-01-01" "2019-12-31" 10000%float 10000%float
             1%float 0.01%float 0 0 0 false [])
          [].

Definition file64 : list (csv_row float) := (Example.rows 90 95 100 110)%float.

End Edge.

(** * Properties *)

(** ** Indexing *)

Lemma iloc_valid {A : Type} (l : list A) (b : Z) :
  valid_bar l b <-> exists r, iloc l b = Some r.
Proof.
  unfold valid_bar, iloc.
  destruct (Z.leb_spec 0 b), (Z.ltb_spec b (Z.of_nat (List.length l))); simpl.
  - split; [intros _ | lia].
    destruct (nth_error l (Z.to_nat b)) as [r|] eqn:E; [now exists r|].
    apply nth_error_None in E. lia.
  - split; [lia | intros [r Hr]].
    destruct (Z.leb_spec (- Z.of_nat (List.length l)) b), (Z.ltb_spec b 0);
      simpl in Hr; try discriminate; lia.
  - destruct (Z.leb_spec (- Z.of_nat (List.length l)) b), (Z.ltb_spec b 0); simpl;
      try lia.
    + split; [intros _ | lia].
      destruct (nth_error l (Z.to_nat (b + Z.of_nat (List.length l)))) as [r|] eqn:E;
        [now exists r|].
      apply nth_error_None in E. lia.
    + split; [lia | intros [r Hr]; discriminate].
  - lia.
Qed.

Section LedgerFacts.

Context {num : Type} `{NumberFloor num}.

Implicit Types (w : world num) (s : BacktestBase num) (r : bar num) (b : Z).

(** ** Reading the price *)

Lemma get_date_price_row w b r :
  iloc (data (self w)) b = Some r ->
  get_date_price b w = (Return (substring 0 10 (label r), close r), w).
Proof. intros E. unfold get_date_price, bind, gets. now rewrite E. Qed.

Lemma get_date_price_outside w b :
  iloc (data (self w)) b = None ->
  get_date_price b w = (Raise IndexError, w).
Proof. intros E. unfold get_date_price, bind, gets. now rewrite E. Qed.

(** ** Net wealth *)

Lemma print_net_wealth_fails w b :
  print_net_wealth b w = (Raise (AttributeError "get_data_price"), w).
Proof. reflexivity. Qed.

(** C1 (the code departs from the claim): [print_net_wealth] never reports
    units * price + cash.  It asks the object for [get_data_price], a name the
    class does not define (the method is [get_date_price]), so on every ledger
    and every bar the call raises [AttributeError]; the ledger and the output
    are left as they were. *)
Theorem print_net_wealth_raises w b :
  print_net_wealth b w = (Raise (AttributeError "get_data_price"), w).
Proof. reflexivity. Qed.

(** ** Orders *)


Ltac step_order E Hu :=
  unfold place_buy_order, place_sell_order, bind;
  rewrite (get_date_price_row _ _ E); unfold lift; rewrite Hu;
  cbn [modify gets self stdout verbose set_amount set_units set_trades
       amount units trades ftc ptc data initial_amount].

Ltac report_order E :=
  unfold print_balance, bind, print;
  cbn [self stdout];
  match goal with
  | |- context [get_date_price ?b ?w'] =>
      rewrite (get_date_price_row w' b (r := _) E)
  end;
  cbn [gets fst snd self stdout amount units trades].

Lemma buy_step w b r units_ amount_ u :
  iloc (data (self w)) b = Some r ->
  resolve_units units_ amount_ (close r) = Return u ->
  let s := self w in
  let s' :=
    set_trades (trades s + 1)
      (set_units (units s + u)
         (set_amount
            (amount s -. ((of_int u *. close r) *. (of_int 1 +. ptc s) +. ftc s))
            s)) in
  self (snd (place_buy_order b units_ amount_ w)) = s'
  /\ (verbose s = false ->
      place_buy_order b units_ amount_ w = (Return tt, mkWorld s' (stdout w))).
Proof.
  intros E Hu s s'. subst s s'. step_order E Hu.
  destruct (verbose (self w)) eqn:V.
  - report_order E. rewrite print_net_wealth_fails. cbn. split; [auto|discriminate].
  - cbn. auto.
Qed.

Lemma sell_step w b r units_ amount_ u :
  iloc (data (self w)) b = Some r ->
  resolve_units units_ amount_ (close r) = Return u ->
  let s := self w in
  let s' :=
    set_trades (trades s + 1)
      (set_units (units s - u)
         (set_amount
            (amount s +. ((of_int u *. close r) *. (of_int 1 -. ptc s) -. ftc s))
            s)) in
  self (snd (place_sell_order b units_ amount_ w)) = s'
  /\ (verbose s = false ->
      place_sell_order b units_ amount_ w = (Return tt, mkWorld s' (stdout w))).
Proof.
  intros E Hu s s'. subst s s'. step_order E Hu.
  destruct (verbose (self w)) eqn:V.
  - report_order E. rewrite print_net_wealth_fails. cbn. split; [auto|discriminate].
  - cbn. auto.
Qed.



(** ** Close-out *)

Lemma close_out_run w b r :
  iloc (data (self w)) b = Some r ->
  let s := self w in
  let cash := amount s +. (of_int (units s) *. close r) in
  let s' := set_trades (trades s + 1) (set_units 0 (set_amount cash s)) in
  let date := substring 0 10 (label r) in
  let out :=
    (stdout w
     ++ (if verbose s then [inventory date 0 (close r); rule] else [])
     ++ [final_balance cash])%list in
  close_out b w =
  match truediv (cash -. initial_amount s) (initial_amount s) with
  | inr q =>
      (Return tt,
       mkWorld s'
         (out ++ [net_performance (q *. of_int 100);
                  trades_executed (trades s + 1); rule])%list)
  | inl e => (Raise (ArithmeticError e), mkWorld s' out)
  end.
Proof.
  intros E s cash s' date out. subst s cash s' date out.
  unfold close_out, bind. rewrite (get_date_price_row _ _ E).
  cbn [modify gets self stdout verbose set_amount set_units set_trades
       amount units trades ftc ptc data initial_amount print lift].
  destruct (verbose (self w)); cbn;
    destruct (truediv _ _) as [e|q]; cbn; unfold print; cbn;
    repeat rewrite <- app_assoc; reflexivity.
Qed.


(** ** What an order leaves alone *)

Lemma frame_refl s : frame s s.
Proof. unfold frame; auto 10. Qed.

Lemma frame_order s a u t :
  frame s (set_trades t (set_units u (set_amount a s))).
Proof. unfold frame; cbn; auto 10. Qed.

Lemma place_buy_order_frame w b units_ amount_ :
  frame (self w) (self (snd (place_buy_order b units_ amount_ w))).
Proof.
  unfold place_buy_order, bind.
  destruct (iloc (data (self w)) b) as [r|] eqn:E.
  - rewrite (get_date_price_row _ _ E). unfold lift.
    destruct (resolve_units units_ amount_ (close r)); [|apply frame_refl].
    cbn [modify gets self stdout verbose set_amount set_units set_trades].
    destruct (verbose (self w)).
    + report_order E. rewrite print_net_wealth_fails. apply frame_order.
    + apply frame_order.
  - rewrite (get_date_price_outside _ _ E). apply frame_refl.
Qed.

Lemma place_sell_order_frame w b units_ amount_ :
  frame (self w) (self (snd (place_sell_order b units_ amount_ w))).
Proof.
  unfold place_sell_order, bind.
  destruct (iloc (data (self w)) b) as [r|] eqn:E.
  - rewrite (get_date_price_row _ _ E). unfold lift.
    destruct (resolve_units units_ amount_ (close r)); [|apply frame_refl].
    cbn [modify gets self stdout verbose set_amount set_units set_trades].
    destruct (verbose (self w)).
    + report_order E. rewrite print_net_wealth_fails. apply frame_order.
    + apply frame_order.
  - rewrite (get_date_price_outside _ _ E). apply frame_refl.
Qed.

Lemma close_out_frame w b :
  frame (self w) (self (snd (close_out b w))).
Proof.
  destruct (iloc (data (self w)) b) as [r|] eqn:E.
  - rewrite (close_out_run w b E).
    destruct (truediv _ _); apply frame_order.
  - unfold close_out, bind. rewrite (get_date_price_outside _ _ E).
    apply frame_refl.
Qed.

Lemma exec_frame_all w (o : order num) :
  frame (self w) (self (snd (exec o w))).
Proof.
  destruct o; cbn [exec];
    auto using place_buy_order_frame, place_sell_order_frame, close_out_frame.
Qed.

(** C10: a buy, a sell and a close-out, whether they return or raise, leave
    [initial_amount], [ftc], [ptc], [start] and [end] as they were, and
    [position], [verbose] and [data] too: of the attributes only [amount],
    [units] and [trades] can differ afterwards. *)
Theorem exec_frame w (o : order num) :
  let s := self w in
  let s' := self (snd (exec o w)) in
  initial_amount s' = initial_amount s
  /\ ftc s' = ftc s /\ ptc s' = ptc s
  /\ start s' = start s /\ end_ s' = end_ s
  /\ position s' = position s /\ verbose s' = verbose s /\ data s' = data s.
Proof.
  cbv zeta. pose proof (exec_frame_all w o) as F.
  unfold frame in F. intuition.
Qed.

(** ** Orders without a size, orders with two *)

Lemma resolve_units_TypeError (units_ : option Z) (amount_ : option num) price :
  resolve_units units_ amount_ price = Raise TypeError <->
  units_ = None /\ amount_ = None.
Proof.
  unfold resolve_units. split.
  - destruct units_; [discriminate|]. destruct amount_; [|auto].
    destruct (truediv n price); [discriminate|].
    destruct (to_int n0); discriminate.
  - now intros [-> ->].
Qed.

Lemma place_buy_order_outcome w b r units_ amount_ :
  iloc (data (self w)) b = Some r ->
  fst (place_buy_order b units_ amount_ w) =
  match resolve_units units_ amount_ (close r) with
  | Return _ =>
      if verbose (self w) then Raise (AttributeError "get_data_price")
      else Return tt
  | Raise e => Raise e
  end.
Proof.
  intros E. unfold place_buy_order, bind.
  rewrite (get_date_price_row _ _ E). unfold lift.
  destruct (resolve_units units_ amount_ (close r)); [|reflexivity].
  cbn [modify gets self stdout verbose set_amount set_units set_trades].
  destruct (verbose (self w)); [|reflexivity].
  report_order E. now rewrite print_net_wealth_fails.
Qed.

Lemma place_sell_order_outcome w b r units_ amount_ :
  iloc (data (self w)) b = Some r ->
  fst (place_sell_order b units_ amount_ w) =
  match resolve_units units_ amount_ (close r) with
  | Return _ =>
      if verbose (self w) then Raise (AttributeError "get_data_price")
      else Return tt
  | Raise e => Raise e
  end.
Proof.
  intros E. unfold place_sell_order, bind.
  rewrite (get_date_price_row _ _ E). unfold lift.
  destruct (resolve_units units_ amount_ (close r)); [|reflexivity].
  cbn [modify gets self stdout verbose set_amount set_units set_trades].
  destruct (verbose (self w)); [|reflexivity].
  report_order E. now rewrite print_net_wealth_fails.
Qed.

(** C6 (as amended): the class has no [InvalidOrderError].  At a bar of the
    frame a buy or a sell raises [TypeError] exactly when neither [units] nor
    [amount] is supplied, and then the ledger and the output are unchanged;
    when both are supplied nothing is raised for it: the order is carried out
    with [units] and [amount] is ignored. *)
Theorem order_size_error w b r units_ amount_ :
  iloc (data (self w)) b = Some r ->
  (fst (place_buy_order b units_ amount_ w) = Raise TypeError
     <-> units_ = None /\ amount_ = None)
  /\ (fst (place_sell_order b units_ amount_ w) = Raise TypeError
     <-> units_ = None /\ amount_ = None)
  /\ snd (place_buy_order b None None w) = w
  /\ snd (place_sell_order b None None w) = w
  /\ (forall u a,
        place_buy_order b (Some u) (Some a) w = place_buy_order b (Some u) None w
        /\ place_sell_order b (Some u) (Some a) w
           = place_sell_order b (Some u) None w).
Proof.
  intros E.
  assert (T : forall o : outcome Z,
             match o with
             | Return _ =>
                 if verbose (self w)
                 then Raise (AttributeError "get_data_price")
                 else Return tt
             | Raise e => Raise e
             end = Raise TypeError <-> o = Raise TypeError).
  { intros [z|e]; [destruct (verbose (self w))|]; split; congruence. }
  split; [|split; [|split; [|split]]].
  - rewrite (place_buy_order_outcome _ _ _ _ E), T.
    apply resolve_units_TypeError.
  - rewrite (place_sell_order_outcome _ _ _ _ E), T.
    apply resolve_units_TypeError.
  - unfold place_buy_order, bind. now rewrite (get_date_price_row _ _ E).
  - unfold place_sell_order, bind. now rewrite (get_date_price_row _ _ E).
  - intros u a. split; reflexivity.
Qed.

(** ** Buying and selling back *)

(** In any number system a buy of [u] units followed by a sell of [u] units
    at the same bar restores the holding and counts two trades. *)
Lemma round_trip_units w b r (u : Z) :
  iloc (data (self w)) b = Some r ->
  let w1 := snd (place_buy_order b (Some u) None w) in
  let w2 := snd (place_sell_order b (Some u) None w1) in
  units (self w2) = units (self w) /\ trades (self w2) = trades (self w) + 2.
Proof.
  intros E w1 w2.
  destruct (buy_step w b (Some u) None E eq_refl) as [H1 _].
  cbv zeta in H1. fold w1 in H1.
  assert (E1 : iloc (data (self w1)) b = Some r) by (rewrite H1; exact E).
  destruct (sell_step w1 b (Some u) None E1 eq_refl) as [H2 _].
  cbv zeta in H2. fold w2 in H2.
  rewrite H2, H1. cbn. lia.
Qed.

(** ** Sequences of orders *)




End LedgerFacts.

(** ** Loading *)

Section Loading.

Context {num : Type} `{Number num}.

Variable in_range : string -> string -> string -> bool.
Variable return_isna : num -> num -> bool.








End Loading.

(** ** The two number systems *)

Lemma binary64_to_int_nonneg (x : float) :
  PrimFloat.leb 0%float x = true -> Binary64.to_int x = Binary64.floor x.
Proof.
  intros L. rewrite leb_spec in L.
  unfold Binary64.to_int, Binary64.floor.
  destruct (Prim2SF x) as [sx|sx| |sx m e]; try reflexivity.
  destruct sx; [discriminate L|].
  destruct (Z.leb_spec 0 e); [reflexivity|].
  cbn [Binary64.signed]. f_equal.
  apply Z.quot_div_nonneg; [lia|]. apply Z.pow_pos_nonneg; lia.
Qed.

#[export] Instance binary64_floor : NumberFloor (num := float) := {
  spec_floor := Binary64.floor;
  nonneg := PrimFloat.leb 0%float;
  to_int_nonneg := binary64_to_int_nonneg
}.

Lemma exact_to_int_nonneg (x : Qc) :
  (0 <=? Qnum x) = true -> Exact.to_int x = Exact.floor x.
Proof.
  intros L. apply Z.leb_le in L.
  unfold Exact.to_int, Exact.floor. f_equal.
  destruct x as [[n d] c]. cbn in L. cbn.
  apply Z.quot_div_nonneg; lia.
Qed.

#[export] Instance exact_floor : NumberFloor (num := Qc) := {
  spec_floor := Exact.floor;
  nonneg := fun x => 0 <=? Qnum x;
  to_int_nonneg := exact_to_int_nonneg
}.


(** ** The specification's worked example *)

Lemma float_neq (x y : float) : Prim2SF x <> Prim2SF y -> x <> y.
Proof. intros N E. apply N. now rewrite E. Qed.

Lemma Qc_neq (x y : Qc) : Qeq_bool x y = false -> x <> y.
Proof.
  intros N E. rewrite E in N.
  now rewrite (proj2 (Qeq_bool_iff y y) (Qeq_refl y)) in N.
Qed.

(** C5 (as amended): from cash 10000 with [ftc = 1] and [ptc = 0.01], buying
    10 units at 100 leaves cash 8989 and 10 units held; closing out at 110
    then leaves cash 10089 and prints a performance of 0.89.  This holds in
    exact arithmetic and, with each value read as the nearest double, in
    binary64. *)
Theorem example_ledger_values :
  (let w1 := snd (place_buy_order 0 (Some 10) None Example.ledgerQ) in
   let w2 := snd (close_out 1 w1) in
   amount (self w1) = Q2Qc 8989 /\ units (self w1) = 10
   /\ amount (self w2) = Q2Qc 10089 /\ units (self w2) = 0
   /\ stdout w2 = [final_balance (Q2Qc 10089); net_performance (Q2Qc (89 # 100));
                   trades_executed 2; rule])
  /\
  (let w1 := snd (place_buy_order 0 (Some 10) None Example.ledger64) in
   let w2 := snd (close_out 1 w1) in
   amount (self w1) = 8989%float /\ units (self w1) = 10
   /\ amount (self w2) = 10089%float /\ units (self w2) = 0
   /\ stdout w2 = [final_balance 10089%float; net_performance 0.89%float;
                   trades_executed 2; rule]).
Proof.
  split; cbv zeta.
  - split; [apply Qc_is_canon; reflexivity|].
    split; [reflexivity|].
    split; [apply Qc_is_canon; reflexivity|].
    split; [reflexivity|].
    assert (P : forall a a' p p' : Qc, a = a' -> p = p' ->
              [final_balance a; net_performance p; trades_executed 2; rule]
              = [final_balance a'; net_performance p'; trades_executed 2; rule])
      by (intros; subst; reflexivity).
    apply P; apply Qc_is_canon; reflexivity.
  - repeat split; reflexivity.
Qed.

(** ** Round trip *)

Lemma exact_of_int_1 : Exact.of_int 1 = 1%Qc.
Proof. apply Qc_is_canon. reflexivity. Qed.


(** ** The theorems at work on the worked ledgers *)




(** A buy without a size. *)
Lemma order_size_error_witness :
  fst (place_buy_order 0 None None Example.ledger64) = Raise TypeError
  /\ snd (place_buy_order 0 None None Example.ledger64) = Example.ledger64.
Proof.
  pose proof (order_size_error Example.ledger64 0 None None
                (r := mkBar "2019-01-02 00:00:00" 100%float) eq_refl) as P.
  destruct P as (Hb & _ & Hw & _).
  split; [apply Hb; split; reflexivity | exact Hw].
Defined.



(** ** Where the code departs from the specification's words *)

(** With the default [verbose=True] a buy updates the ledger, prints its two
    first lines and raises from [print_net_wealth]; the close-out that should
    follow is never reached. *)
Lemma verbose_buy_raises_after_update :
  let w := run [buy 0 (Some 10) None; closeout 1] Example.ledger64_verbose in
  fst w = Raise (AttributeError "get_data_price")
  /\ amount (self (snd w)) = 8989%float /\ units (self (snd w)) = 10
  /\ trades (self (snd w)) = 1
  /\ stdout (snd w) = [selling "2019-01-02" 10 100%float;
                       current_balance "2019-01-02" 8989%float].
Proof. cbv zeta. repeat split; reflexivity. Qed.



(** C5: the buy of the worked example leaves cash 8989, not 8888, and the
    close-out leaves 10089, not 9988, in exact arithmetic and in binary64. *)
Lemma example_ledger_not_8888 :
  (let w1 := snd (place_buy_order 0 (Some 10) None Example.ledgerQ) in
   amount (self w1) <> Q2Qc 8888
   /\ amount (self (snd (close_out 1 w1))) <> Q2Qc 9988)
  /\
  (let w1 := snd (place_buy_order 0 (Some 10) None Example.ledger64) in
   amount (self w1) <> 8888%float
   /\ amount (self (snd (close_out 1 w1))) <> 9988%float).
Proof.
  split; cbv zeta; split.
  - apply Qc_neq. reflexivity.
  - apply Qc_neq. reflexivity.
  - apply float_neq. vm_compute. discriminate.
  - apply float_neq. vm_compute. discriminate.
Qed.

(** C6: with both [units] and [amount] supplied nothing is raised; the order
    is carried out for the units. *)
Lemma both_supplied_no_error :
  let w' := place_buy_order 0 (Some 10) (Some 500%float) Example.ledger64 in
  fst w' = Return tt
  /\ units (self (snd w')) = 10 /\ trades (self (snd w')) = 1
  /\ fst (place_sell_order 0 (Some 10) (Some 500%float) Example.ledger64)
     = Return tt.
Proof. cbv zeta. repeat split; reflexivity. Qed.




(** * Further properties of the class *)

Section MoreLedgerFacts.

Context {num : Type} `{Number num}.

Implicit Types (w : world num) (s : BacktestBase num) (r : bar num) (b : Z).

(** ** Bar lookup *)


Lemma iloc_negative {A : Type} (l : list A) (b : Z) :
  - Z.of_nat (List.length l) <= b < 0 ->
  iloc l b = iloc l (b + Z.of_nat (List.length l)).
Proof.
  intros [Hl Hr]. unfold iloc.
  destruct (Z.leb_spec 0 b); [lia|]. cbn [andb].
  destruct (Z.leb_spec (- Z.of_nat (List.length l)) b); [|lia].
  destruct (Z.ltb_spec b 0); [|lia]. cbn [andb].
  destruct (Z.leb_spec 0 (b + Z.of_nat (List.length l))); [|lia].
  destruct (Z.ltb_spec (b + Z.of_nat (List.length l)) (Z.of_nat (List.length l)));
    [|lia].
  reflexivity.
Qed.

(** X2: a negative bar counts from the end of the frame: for
    [-n <= bar < 0] the lookup at [bar] is the lookup at [bar + n], so bar
    [-1] is the last row. *)
Theorem get_date_price_negative w b :
  - Z.of_nat (List.length (data (self w))) <= b < 0 ->
  get_date_price b w
  = get_date_price (b + Z.of_nat (List.length (data (self w)))) w.
Proof.
  intros V. unfold get_date_price, bind, gets.
  now rewrite (iloc_negative _ V).
Qed.

(** ** Balance report *)


(** ** Orders that fail, orders that report *)

Lemma buy_outside w b units_ amount_ :
  iloc (data (self w)) b = None ->
  place_buy_order b units_ amount_ w = (Raise IndexError, w).
Proof.
  intros E. unfold place_buy_order, bind.
  now rewrite (get_date_price_outside _ _ E).
Qed.

Lemma sell_outside w b units_ amount_ :
  iloc (data (self w)) b = None ->
  place_sell_order b units_ amount_ w = (Raise IndexError, w).
Proof.
  intros E. unfold place_sell_order, bind.
  now rewrite (get_date_price_outside _ _ E).
Qed.

Lemma close_out_outside w b :
  iloc (data (self w)) b = None ->
  close_out b w = (Raise IndexError, w).
Proof.
  intros E. unfold close_out, bind.
  now rewrite (get_date_price_outside _ _ E).
Qed.

Lemma buy_unsized w b r units_ amount_ e :
  iloc (data (self w)) b = Some r ->
  resolve_units units_ amount_ (close r) = Raise e ->
  place_buy_order b units_ amount_ w = (Raise e, w).
Proof.
  intros E Hu. unfold place_buy_order, bind.
  rewrite (get_date_price_row _ _ E). unfold lift. now rewrite Hu.
Qed.

Lemma sell_unsized w b r units_ amount_ e :
  iloc (data (self w)) b = Some r ->
  resolve_units units_ amount_ (close r) = Raise e ->
  place_sell_order b units_ amount_ w = (Raise e, w).
Proof.
  intros E Hu. unfold place_sell_order, bind.
  rewrite (get_date_price_row _ _ E). unfold lift. now rewrite Hu.
Qed.

Lemma resolve_units_raises (units_ : option Z) (amount_ : option num) price e :
  resolve_units units_ amount_ price = Raise e ->
  e = TypeError \/ exists a, e = ArithmeticError a.
Proof.
  unfold resolve_units. destruct units_; [discriminate|].
  destruct amount_ as [a|]; [|intros [= <-]; now left].
  destruct (truediv a price) as [x|q]; [intros [= <-]; right; now exists x|].
  destruct (to_int q) as [x|z]; cbn; [intros [= <-]; right; now exists x|].
  discriminate.
Qed.

(** The full result of an order on a ledger that reports each order. *)
Lemma buy_verbose_run w b r units_ amount_ u :
  iloc (data (self w)) b = Some r ->
  resolve_units units_ amount_ (close r) = Return u ->
  verbose (self w) = true ->
  let s := self w in
  let cash :=
    amount s -. ((of_int u *. close r) *. (of_int 1 +. ptc s) +. ftc s) in
  let date := substring 0 10 (label r) in
  place_buy_order b units_ amount_ w
  = (Raise (AttributeError "get_data_price"),
     mkWorld (set_trades (trades s + 1)
                (set_units (units s + u) (set_amount cash s)))
       (stdout w ++ [selling date u (close r); current_balance date cash])).
Proof.
  intros E Hu V s cash date. subst s cash date.
  unfold place_buy_order, bind.
  rewrite (get_date_price_row _ _ E). unfold lift. rewrite Hu.
  cbn [modify gets self stdout verbose set_amount set_units set_trades].
  rewrite V. unfold print_balance, bind, print. cbn [self stdout].
  match goal with
  | |- context [get_date_price ?b' ?w'] =>
      rewrite (get_date_price_row w' b' (r := r) E)
  end.
  cbn [gets fst snd self stdout amount set_trades set_units set_amount].
  rewrite print_net_wealth_fails. now rewrite <- app_assoc.
Qed.

Lemma sell_verbose_run w b r units_ amount_ u :
  iloc (data (self w)) b = Some r ->
  resolve_units units_ amount_ (close r) = Return u ->
  verbose (self w) = true ->
  let s := self w in
  let cash :=
    amount s +. ((of_int u *. close r) *. (of_int 1 -. ptc s) -. ftc s) in
  let date := substring 0 10 (label r) in
  place_sell_order b units_ amount_ w
  = (Raise (AttributeError "get_data_price"),
     mkWorld (set_trades (trades s + 1)
                (set_units (units s - u) (set_amount cash s)))
       (stdout w ++ [selling date u (close r); current_balance date cash])).
Proof.
  intros E Hu V s cash date. subst s cash date.
  unfold place_sell_order, bind.
  rewrite (get_date_price_row _ _ E). unfold lift. rewrite Hu.
  cbn [modify gets self stdout verbose set_amount set_units set_trades].
  rewrite V. unfold print_balance, bind, print. cbn [self stdout].
  match goal with
  | |- context [get_date_price ?b' ?w'] =>
      rewrite (get_date_price_row w' b' (r := r) E)
  end.
  cbn [gets fst snd self stdout amount set_trades set_units set_amount].
  rewrite print_net_wealth_fails. now rewrite <- app_assoc.
Qed.

(** X4: failures before the update are atomic.  When a buy or a sell raises
    anything but the [AttributeError] of its report, or a close-out raises
    [IndexError], the object and the output are exactly as before the call. *)
Theorem exec_failure_atomic w (o : order num) e :
  fst (exec o w) = Raise e ->
  match o with
  | closeout _ => e = IndexError
  | _ => forall name, e <> AttributeError name
  end ->
  snd (exec o w) = w.
Proof.
  intros R Ke. destruct o as [b u a|b u a|b]; cbn [exec] in R; cbn [exec].
  - destruct (iloc (data (self w)) b) as [r|] eqn:E;
      [|now rewrite (buy_outside _ _ _ _ E)].
    rewrite (place_buy_order_outcome _ _ _ _ E) in R.
    destruct (resolve_units u a (close r)) as [z|e'] eqn:Hu;
      [|now rewrite (buy_unsized _ _ _ _ E Hu)].
    destruct (verbose (self w)); [|discriminate].
    injection R as <-. now destruct (Ke "get_data_price").
  - destruct (iloc (data (self w)) b) as [r|] eqn:E;
      [|now rewrite (sell_outside _ _ _ _ E)].
    rewrite (place_sell_order_outcome _ _ _ _ E) in R.
    destruct (resolve_units u a (close r)) as [z|e'] eqn:Hu;
      [|now rewrite (sell_unsized _ _ _ _ E Hu)].
    destruct (verbose (self w)); [|discriminate].
    injection R as <-. now destruct (Ke "get_data_price").
  - destruct (iloc (data (self w)) b) as [r|] eqn:E;
      [|now rewrite (close_out_outside _ _ E)].
    rewrite (close_out_run w b E) in R. subst e.
    destruct (truediv _ _); discriminate.
Qed.

Lemma exec_step_cases w (o : order num) :
  snd (exec o w) = w
  \/ trades (self (snd (exec o w))) = trades (self w) + 1.
Proof.
  destruct o as [b u a|b u a|b]; cbn [exec].
  - destruct (iloc (data (self w)) b) as [r|] eqn:E;
      [|left; now rewrite (buy_outside _ _ _ _ E)].
    destruct (resolve_units u a (close r)) as [z|e'] eqn:Hu;
      [|left; now rewrite (buy_unsized _ _ _ _ E Hu)].
    right. destruct (buy_step w b u a E Hu) as [-> _]. reflexivity.
  - destruct (iloc (data (self w)) b) as [r|] eqn:E;
      [|left; now rewrite (sell_outside _ _ _ _ E)].
    destruct (resolve_units u a (close r)) as [z|e'] eqn:Hu;
      [|left; now rewrite (sell_unsized _ _ _ _ E Hu)].
    right. destruct (sell_step w b u a E Hu) as [-> _]. reflexivity.
  - destruct (iloc (data (self w)) b) as [r|] eqn:E;
      [|left; now rewrite (close_out_outside _ _ E)].
    right. rewrite (close_out_run w b E).
    destruct (truediv _ _); reflexivity.
Qed.

(** X5: cash and holding are never written without a trade being counted:
    after any order, returning or raising, either nothing at all has changed
    or [trades] has grown by exactly one.  So a change of [amount] or of
    [units] always comes with one more trade. *)
Theorem exec_counts_every_write w (o : order num) :
  let s := self w in
  let s' := self (snd (exec o w)) in
  (trades s' = trades s \/ trades s' = trades s + 1)
  /\ (amount s' <> amount s \/ units s' <> units s ->
      trades s' = trades s + 1).
Proof.
  cbv zeta. destruct (exec_step_cases w o) as [-> | T].
  - split; [now left|]. intros [N|N]; now destruct N.
  - split; [now right|]. intros _. exact T.
Qed.

(** X6: over any sequence of orders, whatever raises on the way, the trade
    count never goes down and grows by at most the number of orders. *)
Theorem run_trades_bounds (os : list (order num)) : forall w,
  trades (self w) <= trades (self (snd (run os w)))
  <= trades (self w) + Z.of_nat (List.length os).
Proof.
  induction os as [|o os IH]; intros w.
  - cbn. lia.
  - cbn [run List.length]. unfold bind.
    pose proof (exec_step_cases w o) as C.
    destruct (exec o w) as [[[]|e] w'] eqn:Ex; cbn [snd] in C; cbn [snd].
    + specialize (IH w'). destruct C as [-> | C]; lia.
    + destruct C as [-> | C]; lia.
Qed.


(** ** Runs *)

(** A run of two sequences in a row is the run of the first followed,
    when it returned, by the run of the second on the ledger it left; when
    the first raised, the second is never started. *)
Theorem run_app (os1 os2 : list (order num)) : forall w,
  run (os1 ++ os2) w
  = match run os1 w with
    | (Return _, w') => run os2 w'
    | (Raise e, w') => (Raise e, w')
    end.
Proof.
  induction os1 as [|o os1 IH]; intros w.
  - reflexivity.
  - cbn [app run]. unfold bind.
    destruct (exec o w) as [[[]|e] w']; [apply IH | reflexivity].
Qed.

Lemma exec_stdout_grows w (o : order num) :
  exists out, stdout (snd (exec o w)) = (stdout w ++ out)%list
              /\ (verbose (self w) = false ->
                  (forall b, o <> closeout b) -> out = []).
Proof.
  destruct o as [b u a|b u a|b]; cbn [exec].
  - destruct (iloc (data (self w)) b) as [r|] eqn:E.
    + destruct (resolve_units u a (close r)) as [z|e'] eqn:Hu.
      * destruct (verbose (self w)) eqn:V.
        -- rewrite (buy_verbose_run w b _ _ E Hu V). eexists.
           split; [reflexivity | discriminate].
        -- destruct (buy_step w b u a E Hu) as [_ R]. rewrite (R V).
           exists []. split; [now rewrite app_nil_r | reflexivity].
      * rewrite (buy_unsized _ _ _ _ E Hu). exists [].
        split; [now rewrite app_nil_r | reflexivity].
    + rewrite (buy_outside _ _ _ _ E). exists [].
      split; [now rewrite app_nil_r | reflexivity].
  - destruct (iloc (data (self w)) b) as [r|] eqn:E.
    + destruct (resolve_units u a (close r)) as [z|e'] eqn:Hu.
      * destruct (verbose (self w)) eqn:V.
        -- rewrite (sell_verbose_run w b _ _ E Hu V). eexists.
           split; [reflexivity | discriminate].
        -- destruct (sell_step w b u a E Hu) as [_ R]. rewrite (R V).
           exists []. split; [now rewrite app_nil_r | reflexivity].
      * rewrite (sell_unsized _ _ _ _ E Hu). exists [].
        split; [now rewrite app_nil_r | reflexivity].
    + rewrite (sell_outside _ _ _ _ E). exists [].
      split; [now rewrite app_nil_r | reflexivity].
  - destruct (iloc (data (self w)) b) as [r|] eqn:E.
    + rewrite (close_out_run w b E).
      destruct (truediv _ _); cbn [snd stdout]; rewrite <- ?app_assoc;
        eexists; (split; [reflexivity | intros _ N; now destruct (N b)]).
    + rewrite (close_out_outside _ _ E). exists [].
      split; [now rewrite app_nil_r | intros _ N; now destruct (N b)].
Qed.

(** The output is append-only: whatever a run of orders does, the lines
    printed before it are still there, in order, at the head of the output. *)
Theorem run_stdout_grows (os : list (order num)) : forall w,
  exists out, stdout (snd (run os w)) = (stdout w ++ out)%list.
Proof.
  induction os as [|o os IH]; intros w.
  - exists []. cbn. now rewrite app_nil_r.
  - cbn [run]. unfold bind.
    destruct (exec_stdout_grows w o) as (out1 & H1 & _).
    destruct (exec o w) as [[[]|e] w'] eqn:Ex; cbn [snd] in H1; cbn [snd].
    + destruct (IH w') as [out2 H2]. exists (out1 ++ out2)%list.
      now rewrite H2, H1, app_assoc.
    + now exists out1.
Qed.

(** X8: buys and sells on a ledger that does not report are silent: a run
    of them prints nothing, whether it completes or stops at an exception. *)
Theorem run_silent (os : list (order num)) : forall w,
  verbose (self w) = false ->
  (forall b, ~ In (closeout b) os) ->
  stdout (snd (run os w)) = stdout w.
Proof.
  induction os as [|o os IH]; intros w V N.
  - reflexivity.
  - cbn [run]. unfold bind.
    destruct (exec_stdout_grows w o) as (out1 & H1 & S1).
    assert (out1 = []) as ->.
    { apply S1; [exact V|]. intros b ->. apply (N b). now left. }
    rewrite app_nil_r in H1.
    pose proof (exec_frame_all w o) as F.
    destruct (exec o w) as [[[]|e] w'] eqn:Ex; cbn [snd] in H1, F |- *;
      [|exact H1].
    rewrite IH; [exact H1| |].
    + destruct F as (_ & _ & _ & _ & _ & _ & Fv & _). congruence.
    + intros b I. apply (N b). now right.
Qed.


End MoreLedgerFacts.

(** ** Accounting in exact arithmetic *)

Section ExactAccounting.

Implicit Types (w : world Qc) (r : bar Qc) (b : Z).

Local Open Scope Qc_scope.

Lemma exact_of_int_0 : Exact.of_int 0 = 0.
Proof. apply Qc_is_canon. reflexivity. Qed.

Lemma exact_of_int_add (x y : Z) :
  Exact.of_int (x + y) = Exact.of_int x + Exact.of_int y.
Proof.
  apply Qc_is_canon. unfold Exact.of_int, Qcplus, Q2Qc. cbn [this].
  rewrite !Qred_correct, inject_Z_plus. reflexivity.
Qed.

Lemma exact_of_int_opp (x : Z) : Exact.of_int (- x) = - Exact.of_int x.
Proof.
  apply Qc_is_canon. unfold Exact.of_int, Qcopp, Q2Qc. cbn [this].
  rewrite !Qred_correct, inject_Z_opp. reflexivity.
Qed.

Lemma exact_of_int_sub (x y : Z) :
  Exact.of_int (x - y) = Exact.of_int x - Exact.of_int y.
Proof.
  unfold Z.sub. rewrite exact_of_int_add, exact_of_int_opp. reflexivity.
Qed.

Ltac exact_ring :=
  unfold net_wealth; cbn;
  change (@add Qc exact) with Qcplus; change (@sub Qc exact) with Qcminus;
  change (@mul Qc exact) with Qcmult;
  repeat rewrite exact_of_int_sub;
  repeat rewrite exact_of_int_add; repeat rewrite exact_of_int_opp;
  rewrite ?exact_of_int_1, ?exact_of_int_0; ring.





(** X14: closing out with nothing held still counts a trade: in exact
    arithmetic cash is unchanged and [trades] grows by one. *)
Theorem close_out_flat_exact w b r :
  iloc (data (self w)) b = Some r ->
  units (self w) = 0%Z ->
  let s' := self (snd (close_out b w)) in
  amount s' = amount (self w) /\ units s' = 0%Z
  /\ trades s' = (trades (self w) + 1)%Z.
Proof.
  intros E U s'. subst s'. rewrite (close_out_run w b E).
  destruct (truediv _ _); cbn; rewrite U; (split; [exact_ring | auto]).
Qed.




End ExactAccounting.

(** ** A bar that closed at zero, in binary64 *)

Lemma binary64_int_of_quotient_by_zero (a p : float) :
  PrimFloat.eqb p 0%float = true ->
  Binary64.to_int (PrimFloat.div a p) = inl OverflowError
  \/ Binary64.to_int (PrimFloat.div a p) = inl ValueError.
Proof.
  intros Z0. rewrite eqb_spec in Z0. unfold Binary64.to_int.
  rewrite div_spec. unfold SF64div.
  change (Prim2SF 0%float) with (S754_zero false) in Z0.
  destruct (Prim2SF p) as [sp|sp| |sp mp ep];
    try discriminate Z0; try (destruct sp; discriminate Z0).
  destruct (Prim2SF a) as [sa|sa| |sa ma ea]; cbn; auto.
Qed.

(** X16: an order sized by an amount at a bar that closed at 0.0 never
    trades.  The quotient [amount / price] is an infinity or a NaN, [int]
    refuses it with [OverflowError] or [ValueError], and the buy or sell
    raises that error with the ledger and the output untouched. *)
Theorem zero_price_order_binary64 (w : world float) (b : Z) (r : bar float)
  (a : float) :
  iloc (data (self w)) b = Some r ->
  PrimFloat.eqb (close r) 0%float = true ->
  exists e, (e = OverflowError \/ e = ValueError)
            /\ place_buy_order b None (Some a) w = (Raise (ArithmeticError e), w)
            /\ place_sell_order b None (Some a) w = (Raise (ArithmeticError e), w).
Proof.
  intros E Z0.
  assert (R : exists e, (e = OverflowError \/ e = ValueError)
                        /\ resolve_units None (Some a) (close r)
                           = Raise (ArithmeticError e)).
  { unfold resolve_units. cbn [truediv binary64 to_int].
    destruct (binary64_int_of_quotient_by_zero a Z0) as [-> | ->];
      eexists; (split; [|reflexivity]); auto. }
  destruct R as (e & He & Hu). exists e. split; [exact He|]. split.
  - exact (buy_unsized w b None (Some a) E Hu).
  - exact (sell_unsized w b None (Some a) E Hu).
Qed.

(** ** What [get_data] keeps *)

Section MoreLoading.

Context {num : Type} `{Number num}.

Variable in_range : string -> string -> string -> bool.
Variable return_isna : num -> num -> bool.

Lemma shift_In (rows : list (bar num)) : forall prev x q,
  In (x, q) (shift prev rows) -> In x rows.
Proof.
  induction rows as [|r k IH]; intros prev x q; cbn; [tauto|].
  intros [[= <- _] | I]; [now left | right; eauto].
Qed.


(** X17: nothing in the frame is made up.  Every bar [get_data] loads is a
    row of the file that has no missing cell and whose label the date range
    selects, with that row's label and close. *)
Theorem get_data_bars_from_file (w : world num) (rows : list (csv_row num))
  (x : bar num) :
  In x (data (self (snd (get_data in_range return_isna (Some rows) w)))) ->
  exists row, In row rows
              /\ row_isna row = false
              /\ in_range (start (self w)) (end_ (self w)) (row_label row) = true
              /\ x = mkBar (row_label row) (row_close row).
Proof.
  unfold get_data, bind, gets, modify. cbn [fst snd self data set_data].
  intros I. apply in_map_iff in I. destruct I as ([x' q] & <- & I).
  apply filter_In in I. destruct I as [I _]. apply shift_In in I.
  apply filter_In in I. destruct I as [I R].
  apply in_map_iff in I. destruct I as (row & <- & I).
  apply filter_In in I. destruct I as [I N].
  exists row. cbn [label fst] in R.
  repeat split; auto. now destruct (row_isna row).
Qed.





End MoreLoading.

(** ** The further properties at work *)

(** Bar -1 of a frame of two rows is bar 1. *)
Lemma get_date_price_negative_witness :
  get_date_price (-1) Example.ledger64 = get_date_price 1 Example.ledger64.
Proof.
  apply (get_date_price_negative Example.ledger64 (b := -1)).
  change (- 2 <= -1 < 0). lia.
Defined.

(** A buy at bar 7 of a frame of two rows. *)
Lemma exec_failure_atomic_witness :
  snd (exec (buy 7 (Some 1) None) Example.ledger64) = Example.ledger64.
Proof.
  apply (exec_failure_atomic Example.ledger64 (buy 7 (Some 1) None)
           (e := IndexError)); [reflexivity | discriminate].
Defined.


(** A buy and a sell without reporting print nothing. *)
Lemma run_silent_witness :
  stdout (snd (run [buy 0 (Some 1) None; sell 1 (Some 1) None] Example.ledger64))
  = stdout Example.ledger64.
Proof.
  apply (run_silent [buy 0 (Some 1) None; sell 1 (Some 1) None] Example.ledger64).
  - reflexivity.
  - intros b [I|[I|[]]]; discriminate I.
Defined.






(** A close-out of the untouched ledger counts as its first trade. *)
Lemma close_out_flat_exact_witness :
  let s' := self (snd (close_out 1 Example.ledgerQ)) in
  amount s' = amount (self Example.ledgerQ) /\ units s' = 0 /\ trades s' = 1.
Proof.
  exact (close_out_flat_exact Example.ledgerQ 1
           (r := mkBar "2019-01-03 00:00:00" (Q2Qc 110)) eq_refl eq_refl).
Defined.


(** An order for an amount of 500 at the bar that closed at 0.0. *)
Lemma zero_price_order_binary64_witness :
  exists e, (e = OverflowError \/ e = ValueError)
            /\ place_buy_order 0 None (Some 500%float) Edge.ledger_zero
               = (Raise (ArithmeticError e), Edge.ledger_zero)
            /\ place_sell_order 0 None (Some 500%float) Edge.ledger_zero
               = (Raise (ArithmeticError e), Edge.ledger_zero).
Proof.
  apply (zero_price_order_binary64 Edge.ledger_zero 0
           (r := mkBar "2019-01-02 00:00:00" 0%float) 500%float);
    reflexivity.
Defined.

(** The bar at 100 of the worked frame is the row of 2019-01-02. *)
Lemma get_data_bars_from_file_witness :
  exists row, In row Edge.file64
              /\ row_isna row = false
              /\ Example.in_range "2019-01-01" "2019-12-31" (row_label row) = true
              /\ mkBar "2019-01-02 00:00:00" 100%float
                 = mkBar (row_label row) (row_close row).
Proof.
  apply (get_data_bars_from_file Example.in_range Binary64.return_isna
           Edge.blank64 Edge.file64 (mkBar "2019-01-02 00:00:00" 100%float)).
  left. reflexivity.
Defined.


